(** * naver-search-mcp: the tool dispatcher and the search handlers

    A shallow embedding of [src/index.ts] (start-up, the call-tool request
    handler, [createErrorResponse]) and of [src/handlers/search.handlers.ts]
    (the eleven search handlers), followed by the properties of the dispatch
    contract.

    JavaScript values are embedded as the JSON-like trees below; an object is
    the list of its own enumerable properties in enumeration order.  Numbers
    are restricted to integers (printed in decimal, as ECMAScript does below
    1e21), strings are sequences of bytes. *)

From Stdlib Require Import ZArith List Ascii String DecimalString Bool Lia.
From stdpp Require Import base option gmap strings.
Import ListNotations.

Local Open Scope string_scope.
Local Open Scope list_scope.
Local Open Scope Z_scope.

(** ** JavaScript values *)

#[local] Set Warnings "-register-all".

Inductive JsVal : Type :=
| JUndefined
| JNull
| JBool (b : bool)
| JNum (z : Z)
| JStr (s : string)
| JArr (elems : list JsVal)
| JObj (props : list (string * JsVal)).

(** What a [throw] carries: an instance of [Error] (with its [message]), or
    any other value. *)
Inductive Thrown : Type :=
| ErrorInstance (message : string)
| NonError (v : JsVal).

(** How the evaluation of an expression, or an awaited promise, ends. *)
Inductive Completion (A : Type) : Type :=
| Normal (a : A)
| Throw (e : Thrown).
Arguments Normal {A} a.
Arguments Throw {A} e.

(** *** Characters used by the serializer *)

Definition DQUOTE : string := String "034"%char EmptyString.
Definition BACKSLASH : string := String "092"%char EmptyString.
Definition LF : string := String "010"%char EmptyString.

(** *** Type conversions of ECMAScript *)

(** [ToBoolean]: the operand of [!]. *)
Definition ToBoolean (v : JsVal) : bool :=
  match v with
  | JUndefined | JNull => false
  | JBool b => b
  | JNum z => negb (z =? 0)
  | JStr s => negb (String.eqb s EmptyString)
  | JArr _ | JObj _ => true
  end.

(** [Number::toString] on an integer: its decimal digits (what ECMAScript
    prints for the integers that a double holds exactly, below 1e21). *)
Definition Number_toString (z : Z) : string :=
  NilZero.string_of_int (Z.to_int z).

Fixpoint join (sep : string) (parts : list string) : string :=
  match parts with
  | [] => EmptyString
  | [p] => p
  | p :: rest => p +:+ sep +:+ join sep rest
  end.

(** *** Own properties *)

Fixpoint digits_value (acc : N) (s : string) : option N :=
  match s with
  | EmptyString => Some acc
  | String c rest =>
      let n := N_of_ascii c in
      if ((48 <=? n) && (n <=? 57))%N
      then digits_value (acc * 10 + (n - 48))%N rest
      else None
  end.

(** An array index is a canonical numeric string below 2^32 - 1; such keys
    are enumerated first, in ascending order. *)
Definition array_index (k : string) : option N :=
  match k with
  | EmptyString => None
  | _ =>
      match digits_value 0%N k with
      | Some n =>
          if String.eqb (NilZero.string_of_uint (N.to_uint n)) k
             && (n <? 4294967295)%N
          then Some n else None
      | None => None
      end
  end.

Fixpoint Get_props (ps : list (string * JsVal)) (k : string) : option JsVal :=
  match ps with
  | [] => None
  | (k', x) :: rest => if String.eqb k k' then Some x else Get_props rest k
  end.

(** [o[k]] on an object of the embedding ([None]: no such own property). *)
Definition Get (o : JsVal) (k : string) : option JsVal :=
  match o with
  | JObj ps => Get_props ps k
  | _ => None
  end.

(** The [TypeError] of [OrdinaryToPrimitive] (the text is the one of V8;
    the program never reads it). *)
Definition cannot_convert : Thrown :=
  ErrorInstance "Cannot convert object to primitive value".

(** [String(v)].  An array joins the strings of its elements with commas
    (nothing for [null] and [undefined]).  An ordinary object gives
    "[object Object]" through the inherited [toString]; when it has an own
    ["toString"] property, which is not callable in this embedding, neither
    that nor [valueOf] yields a primitive and the conversion throws. *)
Fixpoint ToString (v : JsVal) : Completion string :=
  match v with
  | JUndefined => Normal "undefined"
  | JNull => Normal "null"
  | JBool true => Normal "true"
  | JBool false => Normal "false"
  | JNum z => Normal (Number_toString z)
  | JStr s => Normal s
  | JArr elems =>
      match (fix each (l : list JsVal) : Completion (list string) :=
               match l with
               | [] => Normal []
               | e :: rest =>
                   match (match e with
                          | JUndefined | JNull => Normal EmptyString
                          | _ => ToString e
                          end) with
                   | Normal part =>
                       match each rest with
                       | Normal parts => Normal (part :: parts)
                       | Throw t => Throw t
                       end
                   | Throw t => Throw t
                   end
               end) elems with
      | Normal parts => Normal (join "," parts)
      | Throw t => Throw t
      end
  | JObj props =>
      match Get_props props "toString" with
      | None => Normal "[object Object]"
      | Some _ => Throw cannot_convert
      end
  end.

Fixpoint replace_prop (k : string) (v : JsVal) (ps : list (string * JsVal))
  : list (string * JsVal) :=
  match ps with
  | [] => []
  | (k', x) :: rest =>
      if String.eqb k k' then (k', v) :: rest
      else (k', x) :: replace_prop k v rest
  end.

Fixpoint insert_index (n : N) (k : string) (v : JsVal)
  (ps : list (string * JsVal)) : list (string * JsVal) :=
  match ps with
  | [] => [(k, v)]
  | (k', x) :: rest =>
      match array_index k' with
      | Some m => if (m <? n)%N then (k', x) :: insert_index n k v rest
                  else (k, v) :: ps
      | None => (k, v) :: ps
      end
  end.

(** [CreateDataProperty]: an existing key keeps its place and takes the new
    value; a new key goes after the keys of its kind. *)
Definition CreateDataProperty (k : string) (v : JsVal)
  (ps : list (string * JsVal)) : list (string * JsVal) :=
  match Get_props ps k with
  | Some _ => replace_prop k v ps
  | None =>
      match array_index k with
      | Some n => insert_index n k v ps
      | None => ps ++ [(k, v)]
      end
  end.

Fixpoint indexed {A : Type} (i : N) (l : list A) : list (string * A) :=
  match l with
  | [] => []
  | x :: rest =>
      (NilZero.string_of_uint (N.to_uint i), x) :: indexed (i + 1)%N rest
  end.

(** The code units of a string, which are its bytes here (exact for ASCII
    text). *)
Fixpoint chars (s : string) : list JsVal :=
  match s with
  | EmptyString => []
  | String c rest => JStr (String c EmptyString) :: chars rest
  end.

(** The own enumerable properties that a spread [...v] copies. *)
Definition own_enumerable_props (v : JsVal) : list (string * JsVal) :=
  match v with
  | JObj ps => ps
  | JArr elems => indexed 0%N elems
  | JStr s => indexed 0%N (chars s)
  | _ => []
  end.

(** [{ ...init, ...v }], the properties of [init] being already defined. *)
Definition spread (init : list (string * JsVal)) (v : JsVal)
  : list (string * JsVal) :=
  fold_left (fun acc p => CreateDataProperty (fst p) (snd p) acc)
            (own_enumerable_props v) init.

(** *** [JSON.stringify] *)

Definition hex_digit (n : N) : string :=
  match n with
  | 0 => "0" | 1 => "1" | 2 => "2" | 3 => "3" | 4 => "4" | 5 => "5"
  | 6 => "6" | 7 => "7" | 8 => "8" | 9 => "9" | 10 => "a" | 11 => "b"
  | 12 => "c" | 13 => "d" | 14 => "e" | _ => "f"
  end%N.

(** One code unit of [QuoteJSONString]. *)
Definition quote_char (c : ascii) : string :=
  let n := N_of_ascii c in
  match n with
  | 8 => BACKSLASH +:+ "b"
  | 9 => BACKSLASH +:+ "t"
  | 10 => BACKSLASH +:+ "n"
  | 12 => BACKSLASH +:+ "f"
  | 13 => BACKSLASH +:+ "r"
  | 34 => BACKSLASH +:+ DQUOTE
  | 92 => BACKSLASH +:+ BACKSLASH
  | _ =>
      if (n <? 32)%N
      then BACKSLASH +:+ "u00" +:+ hex_digit (n / 16) +:+ hex_digit (n mod 16)
      else String c EmptyString
  end%N.

Fixpoint quote_chars (s : string) : string :=
  match s with
  | EmptyString => EmptyString
  | String c rest => quote_char c +:+ quote_chars rest
  end.

Definition QuoteJSONString (s : string) : string :=
  DQUOTE +:+ quote_chars s +:+ DQUOTE.

Fixpoint spaces (n : nat) : string :=
  match n with
  | O => EmptyString
  | S m => " " +:+ spaces m
  end.

(** The brackets of [SerializeJSONObject] and [SerializeJSONArray] around
    the members [partial]; [stepback] is the indentation outside, [indent]
    the one inside. *)
Definition wrap (opening closing gap stepback indent : string)
  (partial : list string) : string :=
  match partial with
  | [] => opening +:+ closing
  | _ =>
      if String.eqb gap EmptyString
      then opening +:+ join "," partial +:+ closing
      else opening +:+ LF +:+ indent
           +:+ join ("," +:+ LF +:+ indent) partial
           +:+ LF +:+ stepback +:+ closing
  end.

(** [SerializeJSONProperty]: [None] is [undefined]. *)
Fixpoint SerializeJSONProperty (gap indent : string) (v : JsVal)
  : option string :=
  match v with
  | JUndefined => None
  | JNull => Some "null"
  | JBool true => Some "true"
  | JBool false => Some "false"
  | JNum z => Some (Number_toString z)
  | JStr s => Some (QuoteJSONString s)
  | JArr elems =>
      let inner := indent +:+ gap in
      Some (wrap "[" "]" gap indent inner
              (map (fun e => match SerializeJSONProperty gap inner e with
                             | Some t => t
                             | None => "null"
                             end) elems))
  | JObj props =>
      let inner := indent +:+ gap in
      let colon := if String.eqb gap EmptyString then ":" else ": " in
      Some (wrap "{" "}" gap indent inner
              ((fix members (ps : list (string * JsVal)) : list string :=
                  match ps with
                  | [] => []
                  | (k, x) :: rest =>
                      match SerializeJSONProperty gap inner x with
                      | Some t => (QuoteJSONString k +:+ colon +:+ t)
                                  :: members rest
                      | None => members rest
                      end
                  end) props))
  end.

(** [JSON.stringify(value, null, space)] with a numeric [space]. *)
Definition JSON_stringify (value : JsVal) (space : nat) : option string :=
  SerializeJSONProperty (spaces (Nat.min 10 space)) EmptyString value.

(** ** Effects

    What the program does to the outside is recorded as a trace of events,
    threaded through the code as state. *)

Inductive ClientMethod : Type := M_search | M_searchLocal | M_searchAcademic.

(** An argument of [console.error]: a value, or a caught error. *)
Inductive ConsoleArg : Type :=
| Val (v : JsVal)
| Err (e : Thrown).

Inductive Event : Type :=
| ConsoleError (args : list ConsoleArg)
| ClientInitialize (config : JsVal)
| ClientCall (m : ClientMethod) (arg : JsVal)
| SetRequestHandler (schema : string)
| ProcessOn (event : string)
| ServerConnect.

Definition Exec (A : Type) : Type := list Event -> Completion A * list Event.

Definition ret {A : Type} (a : A) : Exec A := fun log => (Normal a, log).

Definition throw {A : Type} (e : Thrown) : Exec A := fun log => (Throw e, log).

Definition bind {A B : Type} (c : Exec A) (k : A -> Exec B) : Exec B :=
  fun log =>
    match c log with
    | (Normal a, log') => k a log'
    | (Throw e, log') => (Throw e, log')
    end.

(** [try { body } catch (error) { handler }] *)
Definition try_catch {A : Type} (body : Exec A) (handler : Thrown -> Exec A)
  : Exec A :=
  fun log =>
    match body log with
    | (Normal a, log') => (Normal a, log')
    | (Throw e, log') => handler e log'
    end.

(** An evaluation without effect on the trace. *)
Definition eval {A : Type} (c : Completion A) : Exec A := fun log => (c, log).

Definition emit (ev : Event) : Exec unit := fun log => (Normal tt, log ++ [ev]).

Definition console_error (args : list ConsoleArg) : Exec unit :=
  emit (ConsoleError args).

Notation "'let*' x ':=' c 'in' k" := (bind c (fun x => k))
  (at level 10, x name, c at level 100, k at level 200).

(** ** The Remote Client

    [NaverSearchClient] is an external collaborator; here it is a stub that
    answers each method call with a completion.  A call through [call_client]
    leaves a [ClientCall] event in the trace. *)

Record NaverSearchClient : Type := {
  search : JsVal -> Completion JsVal;
  searchLocal : JsVal -> Completion JsVal;
  searchAcademic : JsVal -> Completion JsVal
}.

Definition method (client : NaverSearchClient) (m : ClientMethod)
  : JsVal -> Completion JsVal :=
  match m with
  | M_search => search client
  | M_searchLocal => searchLocal client
  | M_searchAcademic => searchAcademic client
  end.

Definition call_client (client : NaverSearchClient) (m : ClientMethod)
  (arg : JsVal) : Exec JsVal :=
  fun log => (method client m arg, log ++ [ClientCall m arg]).

(** ** src/handlers/search.handlers.ts *)

Definition Handler : Type := JsVal -> Exec JsVal.

Section Handlers.
Variable client : NaverSearchClient.

Definition handleAcademicSearch : Handler :=
  fun params => call_client client M_searchAcademic params.

Definition handleBookSearch : Handler :=
  fun params =>
    call_client client M_search (JObj (spread [("type", JStr "book")] params)).

Definition handleEncycSearch : Handler :=
  fun params =>
    call_client client M_search (JObj (spread [("type", JStr "encyc")] params)).

Definition handleImageSearch : Handler :=
  fun params =>
    call_client client M_search (JObj (spread [("type", JStr "image")] params)).

Definition handleKinSearch : Handler :=
  fun params =>
    call_client client M_search (JObj (spread [("type", JStr "kin")] params)).

Definition handleLocalSearch : Handler :=
  fun params => call_client client M_searchLocal params.

Definition handleNewsSearch : Handler :=
  fun params =>
    call_client client M_search (JObj (spread [("type", JStr "news")] params)).

Definition handleBlogSearch : Handler :=
  fun params =>
    call_client client M_search (JObj (spread [("type", JStr "blog")] params)).

Definition handleShopSearch : Handler :=
  fun params =>
    call_client client M_search (JObj (spread [("type", JStr "shop")] params)).

Definition handleCafeArticleSearch : Handler :=
  fun params =>
    call_client client M_search
      (JObj (spread [("type", JStr "cafearticle")] params)).

Definition handleWebKrSearch : Handler :=
  fun args =>
    call_client client M_search (JObj (spread [("type", JStr "webkr")] args)).

(** The handlers that inject a type tag, each with its tag. *)
Definition tagged_handlers : list (string * Handler) :=
  [ ("book", handleBookSearch); ("encyc", handleEncycSearch);
    ("image", handleImageSearch); ("kin", handleKinSearch);
    ("news", handleNewsSearch); ("blog", handleBlogSearch);
    ("shop", handleShopSearch); ("cafearticle", handleCafeArticleSearch);
    ("webkr", handleWebKrSearch) ].

(** Every handler of the file, each with the client method it calls and
    the request it builds from its parameter. *)
Definition search_handlers
  : list (Handler * (ClientMethod * (JsVal -> JsVal))) :=
  (handleAcademicSearch, (M_searchAcademic, fun p => p))
  :: (handleLocalSearch, (M_searchLocal, fun p => p))
  :: map (fun th => (snd th, (M_search,
                     fun p => JObj (spread [("type", JStr (fst th))] p))))
         tagged_handlers.
End Handlers.

(** ** src/index.ts: the dispatcher *)

(** The properties that every object literal inherits from
    [Object.prototype]. *)
Inductive ObjectPrototypeMember : Type :=
| OP_constructor | OP_defineGetter | OP_defineSetter | OP_hasOwnProperty
| OP_lookupGetter | OP_lookupSetter | OP_isPrototypeOf
| OP_propertyIsEnumerable | OP_toString | OP_valueOf | OP_proto
| OP_toLocaleString.

Definition Object_prototype : list (string * ObjectPrototypeMember) :=
  [ ("constructor", OP_constructor);
    ("__defineGetter__", OP_defineGetter);
    ("__defineSetter__", OP_defineSetter);
    ("hasOwnProperty", OP_hasOwnProperty);
    ("__lookupGetter__", OP_lookupGetter);
    ("__lookupSetter__", OP_lookupSetter);
    ("isPrototypeOf", OP_isPrototypeOf);
    ("propertyIsEnumerable", OP_propertyIsEnumerable);
    ("toString", OP_toString);
    ("valueOf", OP_valueOf);
    ("__proto__", OP_proto);
    ("toLocaleString", OP_toLocaleString) ].

Fixpoint assoc {A : Type} (k : string) (l : list (string * A)) : option A :=
  match l with
  | [] => None
  | (k', x) :: rest => if String.eqb k k' then Some x else assoc k rest
  end.

(** The value of [toolHandlers[name]] when it is not [undefined]. *)
Inductive Property : Type :=
| Own (h : Handler)
| Inherited (m : ObjectPrototypeMember).

(** [s.includes(sub)] *)
Fixpoint includes (s sub : string) : bool :=
  String.prefix sub s
  || match s with
     | EmptyString => false
     | String _ rest => includes rest sub
     end.

(** The [text] of the first item of a response's [content]. *)
Definition response_text (response : JsVal) : option JsVal :=
  match Get response "content" with
  | Some (JArr (item :: _)) => Get item "text"
  | _ => None
  end.

Definition text_response (text : JsVal) : JsVal :=
  JObj [("content", JArr [JObj [("type", JStr "text"); ("text", text)]])].

Definition error_response (errorMessage : string) : JsVal :=
  JObj [("content",
         JArr [JObj [("type", JStr "text");
                     ("text", JStr ("Error: " +:+ errorMessage))]]);
        ("isError", JBool true)].

Section Dispatcher.
(** The two handler tables are exported by modules outside the sources at
    hand; they are parameters here. *)
Variable searchToolHandlers datalabToolHandlers : gmap string Handler.

(** The message that the engine gives to the [TypeError] of a failed call
    of an inherited property (ECMAScript does not fix it). *)
Variable engine_message : ObjectPrototypeMember -> string.

(** [{ ...searchToolHandlers, ...datalabToolHandlers }]: the later spread
    wins on a shared key. *)
Definition toolHandlers : gmap string Handler :=
  datalabToolHandlers ∪ searchToolHandlers.

(** [toolHandlers[name]]: an own property, else one found on the prototype
    chain, else [undefined]. *)
Definition toolHandlers_get (name : string) : option Property :=
  match toolHandlers !! name with
  | Some h => Some (Own h)
  | None => Inherited <$> assoc name Object_prototype
  end.

(** [m(arg)] for an inherited property [m], with [this] undefined and
    [arg] truthy.  Only [toString] (which answers for an undefined
    [this]), [constructor] ([Object] gives back an object, and wraps a
    primitive in an object that serializes as the primitive) and
    [isPrototypeOf] on a primitive return; [__proto__] is not a function
    and the others need an object for [this]. *)
Definition call_inherited (m : ObjectPrototypeMember) (arg : JsVal)
  : Completion JsVal :=
  match m with
  | OP_toString => Normal (JStr "[object Undefined]")
  | OP_constructor => Normal arg
  | OP_isPrototypeOf =>
      match arg with
      | JArr _ | JObj _ => Throw (ErrorInstance (engine_message m))
      | _ => Normal (JBool false)
      end
  | _ => Throw (ErrorInstance (engine_message m))
  end.

(** [await handler(args)] *)
Definition apply_property (handler : Property) (args : JsVal) : Exec JsVal :=
  match handler with
  | Own h => h args
  | Inherited m => fun log => (call_inherited m args, log)
  end.

Definition createErrorResponse (error : Thrown) : Exec JsVal :=
  let* errorMessage :=
    eval (match error with
          | ErrorInstance message => Normal message
          | NonError v => ToString v
          end) in
  let* _ := console_error [Val (JStr "API Error:"); Val (JStr errorMessage)] in
  ret (JObj [("content",
              JArr [JObj [("type", JStr "text");
                          ("text", JStr ("Error: " +:+ errorMessage))]]);
             ("isError", JBool true)]).

(** The handler registered for [CallToolRequestSchema], applied to a
    request with [params.name = name] and [params.arguments = args]. *)
Definition callTool (name : string) (args : JsVal) : Exec JsVal :=
  try_catch
    (let* _ := console_error
                 [Val (JStr ("Executing tool: " +:+ name +:+ " with args:"));
                  Val args] in
     let* _ := (if negb (ToBoolean args)
                then throw (ErrorInstance "Arguments are required")
                else ret tt) in
     match toolHandlers_get name with
     | None => throw (ErrorInstance ("Unknown tool: " +:+ name))
     | Some handler =>
         let* result := apply_property handler args in
         let* _ := console_error
                     [Val (JStr ("Tool " +:+ name
                                 +:+ " executed successfully"))] in
         ret (JObj [("content",
                     JArr [JObj [("type", JStr "text");
                                 ("text",
                                  match JSON_stringify result 2 with
                                  | Some t => JStr t
                                  | None => JUndefined
                                  end)]])])
     end)
    createErrorResponse.
End Dispatcher.

(** ** src/index.ts: start-up *)

Inductive ProcessStatus : Type :=
| Exited (code : Z)
| Running.

(** [process.env.KEY] *)
Definition env_get (env : gmap string string) (key : string) : JsVal :=
  match env !! key with
  | Some s => JStr s
  | None => JUndefined
  end.

(** [runServer()], [connect] being how [server.connect(transport)] ends. *)
Definition runServer (connect : Completion unit) (log : list Event)
  : list Event * ProcessStatus :=
  let log := log ++ [ProcessOn "uncaughtException";
                     ProcessOn "unhandledRejection"; ServerConnect] in
  match connect with
  | Normal _ =>
      (log ++ [ConsoleError [Val (JStr "Naver Search MCP Server running on stdio")]],
       Running)
  | Throw error =>
      (log ++ [ConsoleError [Val (JStr "Fatal error running server:"); Err error]],
       Exited 1)
  end.

(** The module body, [env] being [process.env] as line 19 reads it (after
    [dotenv.config()]). *)
Definition main (env : gmap string string) (connect : Completion unit)
  : list Event * ProcessStatus :=
  let NAVER_CLIENT_ID := env_get env "NAVER_CLIENT_ID" in
  let NAVER_CLIENT_SECRET := env_get env "NAVER_CLIENT_SECRET" in
  if negb (ToBoolean NAVER_CLIENT_ID) || negb (ToBoolean NAVER_CLIENT_SECRET)
  then
    ([ConsoleError
        [Val (JStr "Error: NAVER_CLIENT_ID and NAVER_CLIENT_SECRET environment variables are required")]],
     Exited 1)
  else
    runServer connect
      [ClientInitialize (JObj [("clientId", NAVER_CLIENT_ID);
                               ("clientSecret", NAVER_CLIENT_SECRET)]);
       SetRequestHandler "ListToolsRequestSchema";
       SetRequestHandler "CallToolRequestSchema"].

(** ** Vocabulary of the statements *)

(** The events that the dispatcher writes with [console.error]. *)
Definition executing (name : string) (args : JsVal) : Event :=
  ConsoleError [Val (JStr ("Executing tool: " +:+ name +:+ " with args:"));
                Val args].

Definition executed (name : string) : Event :=
  ConsoleError [Val (JStr ("Tool " +:+ name +:+ " executed successfully"))].

Definition api_error (errorMessage : string) : Event :=
  ConsoleError [Val (JStr "API Error:"); Val (JStr errorMessage)].

(** [undefined] for a missing string. *)
Definition of_option (o : option string) : JsVal :=
  match o with
  | Some t => JStr t
  | None => JUndefined
  end.

(** The calls to the Remote Client recorded in a trace, in order. *)
Definition client_calls (log : list Event) : list (ClientMethod * JsVal) :=
  flat_map (fun ev => match ev with
                      | ClientCall m arg => [(m, arg)]
                      | _ => []
                      end) log.

(** A stub of the Remote Client that answers every call with [answer]. *)
Definition stub (answer : Completion JsVal) : NaverSearchClient :=
  {| search := fun _ => answer;
     searchLocal := fun _ => answer;
     searchAcademic := fun _ => answer |}.

(** Modelled from the spec: the export [searchToolHandlers] of
    handlers/search.handlers.ts, which maps tool names to the handlers, is
    missing from the sources at hand; the spec names two of its keys,
    "news-search" and "local-search", and the handlers they reach. *)
Definition spec_searchToolHandlers (client : NaverSearchClient)
  : gmap string Handler :=
  <["news-search" := handleNewsSearch client]>
    (<["local-search" := handleLocalSearch client]> ∅).

(** An engine whose [TypeError]s carry no message. *)
Definition silent_engine : ObjectPrototypeMember -> string :=
  fun _ => EmptyString.

Definition items_empty : JsVal := JObj [("items", JArr [])].
Definition query (q : string) : JsVal := JObj [("query", JStr q)].

Definition items_empty_text : string :=
  "{" +:+ LF +:+ "  " +:+ DQUOTE +:+ "items" +:+ DQUOTE +:+ ": []"
  +:+ LF +:+ "}".

(** The success envelope in the words of the spec: it carries
    [isError: false]. *)
Definition spec_success_response (text : string) : JsVal :=
  JObj [("content", JArr [JObj [("type", JStr "text"); ("text", JStr text)]]);
        ("isError", JBool false)].

(** The tables of the scenarios: the two tools that the spec names, served
    by a stubbed client. *)
Definition scenario_tools (answer : Completion JsVal) : gmap string Handler :=
  spec_searchToolHandlers (stub answer).

(** An environment that holds the two credentials. *)
Definition env_of (id secret : string) : gmap string string :=
  <["NAVER_CLIENT_ID" := id]> (<["NAVER_CLIENT_SECRET" := secret]> ∅).

(** The variable [key] is not set, or is set to the empty string. *)
Definition absent_or_empty (env : gmap string string) (key : string) : bool :=
  match env !! key with
  | Some s => String.eqb s EmptyString
  | None => true
  end.

Definition credentials_required : Event :=
  ConsoleError
    [Val (JStr "Error: NAVER_CLIENT_ID and NAVER_CLIENT_SECRET environment variables are required")].

(** The [errorMessage] of [createErrorResponse]:
    [error instanceof Error ? error.message : String(error)]. *)
Definition errorMessage_of (error : Thrown) : Completion string :=
  match error with
  | ErrorInstance message => Normal message
  | NonError v => ToString v
  end.

(** Values that [!] turns into [true].  (JavaScript has more of them, such
    as NaN, which are not values of the embedding.) *)
Definition falsy_values : list JsVal :=
  [JUndefined; JNull; JBool false; JNum 0; JStr EmptyString].

(** The trace of a start-up that reaches [server.connect], up to it. *)
Definition before_connect (config : JsVal) : list Event :=
  [ClientInitialize config;
   SetRequestHandler "ListToolsRequestSchema";
   SetRequestHandler "CallToolRequestSchema";
   ProcessOn "uncaughtException"; ProcessOn "unhandledRejection"].

(** ** The value model on examples *)

Example stringify_items :
  JSON_stringify (JObj [("items", JArr [])]) 2
  = Some ("{" +:+ LF +:+ "  " +:+ DQUOTE +:+ "items" +:+ DQUOTE +:+ ": []"
          +:+ LF +:+ "}").
Proof. reflexivity. Qed.

Example stringify_nested :
  JSON_stringify (JObj [("a", JArr [JNum 1; JUndefined]); ("b", JUndefined);
                        ("c", JStr "x")]) 2
  = Some ("{" +:+ LF +:+ "  " +:+ DQUOTE +:+ "a" +:+ DQUOTE +:+ ": ["
          +:+ LF +:+ "    1," +:+ LF +:+ "    null" +:+ LF +:+ "  ],"
          +:+ LF +:+ "  " +:+ DQUOTE +:+ "c" +:+ DQUOTE +:+ ": "
          +:+ DQUOTE +:+ "x" +:+ DQUOTE +:+ LF +:+ "}").
Proof. reflexivity. Qed.

Example spread_order :
  spread [("type", JStr "news")]
         (JObj [("query", JStr "x"); ("7", JNum 1); ("type", JStr "blog");
                ("3", JNum 2)])
  = [("3", JNum 2); ("7", JNum 1); ("type", JStr "blog"); ("query", JStr "x")].
Proof. reflexivity. Qed.

Example to_string_array :
  ToString (JArr [JNum (-12); JNull; JStr "a"; JObj []])
  = Normal "-12,,a,[object Object]".
Proof. reflexivity. Qed.

(** ** Paths through the dispatcher *)

Section DispatcherPaths.
Variable S D : gmap string Handler.
Variable em : ObjectPrototypeMember -> string.

Lemma callTool_falsy name args log :
  ToBoolean args = false ->
  callTool S D em name args log
  = (Normal (error_response "Arguments are required"),
     log ++ [executing name args] ++ [api_error "Arguments are required"]).
Proof.
  intros Hf. unfold callTool, try_catch, bind, console_error, emit.
  rewrite Hf. cbn. by rewrite <- app_assoc.
Qed.

Lemma callTool_undefined_handler name args log :
  ToBoolean args = true ->
  toolHandlers_get S D name = None ->
  callTool S D em name args log
  = (Normal (error_response ("Unknown tool: " +:+ name)),
     log ++ [executing name args]
         ++ [api_error ("Unknown tool: " +:+ name)]).
Proof.
  intros Ht Hn. unfold callTool, try_catch, bind, console_error, emit.
  rewrite Ht, Hn. cbn. by rewrite <- app_assoc.
Qed.

Lemma callTool_resolved name args p result log log' :
  ToBoolean args = true ->
  toolHandlers_get S D name = Some p ->
  apply_property em p args (log ++ [executing name args])
  = (Normal result, log') ->
  callTool S D em name args log
  = (Normal (text_response (of_option (JSON_stringify result 2))),
     log' ++ [executed name]).
Proof.
  intros Ht Hp Hr. unfold callTool, try_catch, bind, console_error, emit.
  rewrite Ht, Hp. cbn. unfold executing in Hr. by rewrite Hr.
Qed.

Lemma callTool_rejected name args p error log log' :
  ToBoolean args = true ->
  toolHandlers_get S D name = Some p ->
  apply_property em p args (log ++ [executing name args])
  = (Throw error, log') ->
  callTool S D em name args log = createErrorResponse error log'.
Proof.
  intros Ht Hp Hr. unfold callTool, try_catch, bind, console_error, emit.
  rewrite Ht, Hp. cbn. unfold executing in Hr. by rewrite Hr.
Qed.

Lemma toolHandlers_get_own name h :
  toolHandlers S D !! name = Some h ->
  toolHandlers_get S D name = Some (Own h).
Proof. intros H. unfold toolHandlers_get. by rewrite H. Qed.

Lemma createErrorResponse_error message log :
  createErrorResponse (ErrorInstance message) log
  = (Normal (error_response message), log ++ [api_error message]).
Proof. reflexivity. Qed.

Lemma createErrorResponse_cases error log :
  createErrorResponse error log
  = match errorMessage_of error with
    | Normal message =>
        (Normal (error_response message), log ++ [api_error message])
    | Throw e => (Throw e, log)
    end.
Proof.
  unfold createErrorResponse, errorMessage_of, bind, eval.
  destruct error as [message | v]; [reflexivity|].
  by destruct (ToString v).
Qed.
End DispatcherPaths.



(** ** The dispatch contract *)

(** C1 fails on the code.  A handler may throw a value that is not an
    [Error] and that [String] cannot convert, such as the object
    [{toString: 1}]: the conversion in [createErrorResponse] then throws
    inside the [catch] clause, and that [TypeError] escapes the call-tool
    handler; no envelope is returned and no "API Error:" line is written. *)
Theorem C1_string_conversion_escapes :
  let thrown := JObj [("toString", JNum 1)] in
  let handlers : gmap string Handler :=
    <["news-search" := fun _ => throw (NonError thrown)]> ∅ in
  ToString thrown = Throw cannot_convert
  /\ callTool handlers ∅ silent_engine "news-search" (JObj []) []
     = (Throw cannot_convert, [executing "news-search" (JObj [])])
  /\ ~ (exists response log',
          callTool handlers ∅ silent_engine "news-search" (JObj []) []
          = (Normal response, log')).
Proof.
  cbv zeta. split; [reflexivity|]. split; [by vm_compute|].
  intros (response & log' & H). vm_compute in H. discriminate.
Qed.

(** C2, as stated, fails: with the stubbed client answering [{items: []}],
    the response to "news-search" is not the envelope with
    [isError: false]. *)
Lemma C2_success_envelope_counterexample :
  fst (callTool (scenario_tools (Normal items_empty)) ∅ silent_engine
         "news-search" (query "test") [])
  <> Normal (spec_success_response items_empty_text).
Proof. vm_compute. discriminate. Qed.

(** C2, amended.  When the handler registered under [name] resolves with
    [result], the dispatcher returns the object
    [{content: [{type: "text", text: JSON.stringify(result, null, 2)}]}],
    which has no [isError] property at all; the serialization of
    [{items: []}] is the three-line text of the spec. *)
Theorem C2_success_envelope
  (S D : gmap string Handler) (em : ObjectPrototypeMember -> string)
  (name : string) (h : Handler) (args result : JsVal)
  (log log' : list Event) :
  toolHandlers S D !! name = Some h ->
  ToBoolean args = true ->
  h args (log ++ [executing name args]) = (Normal result, log') ->
  let response :=
    JObj [("content",
           JArr [JObj [("type", JStr "text");
                       ("text", of_option (JSON_stringify result 2))]])] in
  callTool S D em name args log = (Normal response, log' ++ [executed name])
  /\ Get response "isError" = None
  /\ JSON_stringify items_empty 2 = Some items_empty_text.
Proof.
  intros Hh Ht Hr response. split; [|split; reflexivity].
  apply (callTool_resolved S D em name args (Own h)); auto.
  by apply toolHandlers_get_own.
Qed.

Lemma C2_success_envelope_witness :
  callTool (scenario_tools (Normal items_empty)) ∅ silent_engine
    "news-search" (query "test") []
  = (Normal (JObj [("content",
                    JArr [JObj [("type", JStr "text");
                                ("text", JStr items_empty_text)]])]),
     [executing "news-search" (query "test");
      ClientCall M_search (JObj [("type", JStr "news");
                                 ("query", JStr "test")]);
      executed "news-search"]).
Proof.
  exact (proj1 (C2_success_envelope
                  (scenario_tools (Normal items_empty)) ∅ silent_engine
                  "news-search"
                  (handleNewsSearch (stub (Normal items_empty)))
                  (query "test") items_empty [] _
                  eq_refl eq_refl eq_refl)).
Defined.

(** C3, as stated, fails: "nonexistent-tool" has no entry in the handler
    map, yet with a null argument object the message of the response does
    not contain "Unknown tool" (the arguments are checked first). *)
Lemma C3_unknown_tool_counterexample :
  toolHandlers (scenario_tools (Normal items_empty)) ∅ !! "nonexistent-tool"
  = None
  /\ ~ (exists response log' message,
          callTool (scenario_tools (Normal items_empty)) ∅ silent_engine
            "nonexistent-tool" JNull [] = (Normal response, log')
          /\ response_text response = Some (JStr message)
          /\ includes message "Unknown tool" = true).
Proof.
  split; [reflexivity|].
  intros (response & log' & message & Hc & Ht & Hi).
  vm_compute in Hc. injection Hc as <- <-.
  vm_compute in Ht. injection Ht as <-.
  vm_compute in Hi. discriminate.
Qed.

(** C3, amended.  For every tool name that is neither a key of the handler
    map nor the name of a property inherited from [Object.prototype]:
    with a truthy arguments value the dispatcher returns the error envelope
    whose text is "Error: Unknown tool: " followed by the name; with a
    falsy one (null or absent among them) it returns the error envelope of
    the missing arguments instead. *)
Theorem C3_unknown_tool
  (S D : gmap string Handler) (em : ObjectPrototypeMember -> string)
  (name : string) (args : JsVal) (log : list Event) :
  toolHandlers S D !! name = None ->
  assoc name Object_prototype = None ->
  callTool S D em name args log
  = (if ToBoolean args
     then (Normal (error_response ("Unknown tool: " +:+ name)),
           log ++ [executing name args;
                   api_error ("Unknown tool: " +:+ name)])
     else (Normal (error_response "Arguments are required"),
           log ++ [executing name args;
                   api_error "Arguments are required"]))
  /\ Get (error_response ("Unknown tool: " +:+ name)) "isError"
     = Some (JBool true)
  /\ includes ("Error: Unknown tool: " +:+ name) "Unknown tool" = true.
Proof.
  intros Hown Hinh. split; [|split; reflexivity].
  destruct (ToBoolean args) eqn:Ht.
  - apply callTool_undefined_handler; [assumption|].
    unfold toolHandlers_get. by rewrite Hown, Hinh.
  - by apply callTool_falsy.
Qed.

Lemma C3_unknown_tool_witness :
  callTool (scenario_tools (Normal items_empty)) ∅ silent_engine
    "nonexistent-tool" (JObj []) []
  = (Normal (error_response "Unknown tool: nonexistent-tool"),
     [executing "nonexistent-tool" (JObj []);
      api_error "Unknown tool: nonexistent-tool"]).
Proof.
  exact (proj1 (C3_unknown_tool
                  (scenario_tools (Normal items_empty)) ∅ silent_engine
                  "nonexistent-tool" (JObj []) [] eq_refl eq_refl)).
Defined.

(** A name inherited from [Object.prototype] is not a key of the handler
    map and still reaches a function: "toString" answers a success
    envelope. *)
Lemma inherited_name_is_called
  (S D : gmap string Handler) (em : ObjectPrototypeMember -> string)
  (log : list Event) :
  toolHandlers S D !! "toString" = None ->
  callTool S D em "toString" (JObj []) log
  = (Normal (text_response
               (JStr (DQUOTE +:+ "[object Undefined]" +:+ DQUOTE))),
     log ++ [executing "toString" (JObj []); executed "toString"]).
Proof.
  intros Hown.
  rewrite (callTool_resolved S D em "toString" (JObj [])
             (Inherited OP_toString) (JStr "[object Undefined]") log
             (log ++ [executing "toString" (JObj [])])); try reflexivity.
  - by rewrite <- app_assoc.
  - unfold toolHandlers_get. by rewrite Hown.
Qed.

(** C4.  For every registered tool name, a call with a null or an absent
    argument object returns the error envelope ([isError: true]) whose
    message contains "Arguments are required"; the trace gains the two
    console lines and nothing else, whatever the registered handler is, so
    no handler runs and the Remote Client is not called. *)
Theorem C4_missing_arguments
  (S D : gmap string Handler) (em : ObjectPrototypeMember -> string)
  (name : string) (h : Handler) (args : JsVal) (log : list Event) :
  toolHandlers S D !! name = Some h ->
  args = JNull \/ args = JUndefined ->
  let added := [executing name args; api_error "Arguments are required"] in
  callTool S D em name args log
  = (Normal (error_response "Arguments are required"), log ++ added)
  /\ Get (error_response "Arguments are required") "isError"
     = Some (JBool true)
  /\ response_text (error_response "Arguments are required")
     = Some (JStr "Error: Arguments are required")
  /\ includes "Error: Arguments are required" "Arguments are required" = true
  /\ client_calls added = [].
Proof.
  intros _ Hargs added. split; [|repeat split; reflexivity].
  apply callTool_falsy. by destruct Hargs as [-> | ->].
Qed.

Lemma C4_missing_arguments_witness :
  callTool (scenario_tools (Normal items_empty)) ∅ silent_engine
    "news-search" JNull []
  = (Normal (error_response "Arguments are required"),
     [executing "news-search" JNull; api_error "Arguments are required"]).
Proof.
  exact (proj1 (C4_missing_arguments
                  (scenario_tools (Normal items_empty)) ∅ silent_engine
                  "news-search"
                  (handleNewsSearch (stub (Normal items_empty)))
                  JNull [] eq_refl (or_introl eq_refl))).
Defined.

(** No search handler catches anything: when the client method that a
    handler calls throws, the handler ends with the very same thrown
    value. *)
Lemma search_handler_rethrows
  (client : NaverSearchClient) (h : Handler) (m : ClientMethod)
  (request : JsVal -> JsVal) (params : JsVal) (e : Thrown)
  (log : list Event) :
  In (h, (m, request)) (search_handlers client) ->
  method client m (request params) = Throw e ->
  h params log = (Throw e, log ++ [ClientCall m (request params)]).
Proof.
  intros Hin Hthrow. cbn in Hin.
  repeat (destruct Hin as [Hin | Hin];
          [injection Hin as <- <- <-; cbv beta in *;
           unfold handleAcademicSearch, handleLocalSearch, handleBookSearch,
             handleEncycSearch, handleImageSearch, handleKinSearch,
             handleNewsSearch, handleBlogSearch, handleShopSearch,
             handleCafeArticleSearch, handleWebKrSearch, call_client;
           cbn [fst snd] in *; by rewrite Hthrow |]).
  destruct Hin.
Qed.

(** C5.  When the handler registered under [name] throws an [Error] with
    message [message], the dispatcher returns
    [{content: [{type: "text", text: "Error: " + message}], isError: true}];
    and a search handler throws exactly what the Remote Client threw. *)
Theorem C5_handler_error_envelope
  (S D : gmap string Handler) (em : ObjectPrototypeMember -> string)
  (name : string) (h : Handler) (args : JsVal) (message : string)
  (log log' : list Event) :
  toolHandlers S D !! name = Some h ->
  ToBoolean args = true ->
  h args (log ++ [executing name args])
  = (Throw (ErrorInstance message), log') ->
  callTool S D em name args log
  = (Normal (JObj [("content",
                    JArr [JObj [("type", JStr "text");
                                ("text", JStr ("Error: " +:+ message))]]);
                   ("isError", JBool true)]),
     log' ++ [api_error message])
  /\ (forall client hd m request params e lg,
        In (hd, (m, request)) (search_handlers client) ->
        method client m (request params) = Throw e ->
        hd params lg = (Throw e, lg ++ [ClientCall m (request params)])).
Proof.
  intros Hh Ht Hr. split.
  - rewrite (callTool_rejected S D em name args (Own h)
               (ErrorInstance message) log log'); auto.
    by apply toolHandlers_get_own.
  - intros. eapply search_handler_rethrows; eassumption.
Qed.

Lemma C5_handler_error_envelope_witness :
  callTool (scenario_tools (Throw (ErrorInstance "rate limited"))) ∅
    silent_engine "news-search" (query "test") []
  = (Normal (JObj [("content",
                    JArr [JObj [("type", JStr "text");
                                ("text", JStr "Error: rate limited")]]);
                   ("isError", JBool true)]),
     [executing "news-search" (query "test");
      ClientCall M_search (JObj [("type", JStr "news");
                                 ("query", JStr "test")]);
      api_error "rate limited"]).
Proof.
  exact (proj1 (C5_handler_error_envelope
                  (scenario_tools (Throw (ErrorInstance "rate limited"))) ∅
                  silent_engine "news-search"
                  (handleNewsSearch
                     (stub (Throw (ErrorInstance "rate limited"))))
                  (query "test") "rate limited" [] _
                  eq_refl eq_refl eq_refl)).
Defined.

(** ** What a handler sends to the Remote Client *)

Lemma Get_props_replace_same k v ps :
  Get_props ps k <> None -> Get_props (replace_prop k v ps) k = Some v.
Proof.
  induction ps as [|[k' x] ps IH]; cbn; [congruence|].
  destruct (String.eqb k k') eqn:E; cbn; rewrite E; auto.
Qed.

Lemma Get_props_replace_other k k' v ps :
  k <> k' -> Get_props (replace_prop k' v ps) k = Get_props ps k.
Proof.
  intros Hne. induction ps as [|[k1 x] ps IH]; cbn; [reflexivity|].
  destruct (String.eqb k' k1) eqn:E'; cbn.
  - apply String.eqb_eq in E' as <-.
    apply String.eqb_neq in Hne. by rewrite Hne.
  - by rewrite IH.
Qed.

Lemma Get_props_insert_index_same n k v ps :
  Get_props ps k = None -> Get_props (insert_index n k v ps) k = Some v.
Proof.
  induction ps as [|[k' x] ps IH]; cbn.
  - by rewrite String.eqb_refl.
  - destruct (String.eqb k k') eqn:E; [discriminate|]. intros Hn.
    destruct (array_index k') as [m|]; [destruct (m <? n)%N|]; cbn;
      rewrite ?E, ?String.eqb_refl; auto.
Qed.

Lemma Get_props_insert_index_other n k k' v ps :
  k <> k' -> Get_props (insert_index n k' v ps) k = Get_props ps k.
Proof.
  intros Hne. apply String.eqb_neq in Hne.
  induction ps as [|[k1 x] ps IH]; cbn.
  - by rewrite Hne.
  - destruct (array_index k1) as [m|]; [destruct (m <? n)%N|]; cbn;
      rewrite ?Hne, ?IH; auto.
Qed.

Lemma Get_props_app ps qs k :
  Get_props (ps ++ qs) k
  = match Get_props ps k with
    | Some x => Some x
    | None => Get_props qs k
    end.
Proof.
  induction ps as [|[k' x] ps IH]; cbn; [reflexivity|].
  by destruct (String.eqb k k').
Qed.

(** Defining a property makes it readable ... *)
Lemma Get_props_define_same k v ps :
  Get_props (CreateDataProperty k v ps) k = Some v.
Proof.
  unfold CreateDataProperty. destruct (Get_props ps k) eqn:E.
  - apply Get_props_replace_same. congruence.
  - destruct (array_index k).
    + by apply Get_props_insert_index_same.
    + rewrite Get_props_app, E. cbn. by rewrite String.eqb_refl.
Qed.

(** ... and leaves the other properties as they were. *)
Lemma Get_props_define_other k k' v ps :
  k <> k' -> Get_props (CreateDataProperty k' v ps) k = Get_props ps k.
Proof.
  intros Hne. unfold CreateDataProperty. destruct (Get_props ps k').
  - by apply Get_props_replace_other.
  - destruct (array_index k').
    + by apply Get_props_insert_index_other.
    + rewrite Get_props_app. cbn. apply String.eqb_neq in Hne.
      rewrite Hne. by destruct (Get_props ps k).
Qed.

(** Keys that a spread does not define keep their value. *)
Lemma Get_props_spread_other k (ps init : list (string * JsVal)) :
  k ∉ map fst ps ->
  Get_props (fold_left (fun acc p => CreateDataProperty (fst p) (snd p) acc)
                       ps init) k
  = Get_props init k.
Proof.
  revert init. induction ps as [|[k' x] ps IH]; cbn; [reflexivity|].
  intros init [Hne Hn]%not_elem_of_cons. rewrite IH by assumption.
  by apply Get_props_define_other.
Qed.

(** A spread of properties with distinct keys gives each of them its value
    in the source, whatever was defined before. *)
Lemma Get_props_spread k t (ps init : list (string * JsVal)) :
  NoDup (map fst ps) ->
  Get_props ps k = Some t ->
  Get_props (fold_left (fun acc p => CreateDataProperty (fst p) (snd p) acc)
                       ps init) k
  = Some t.
Proof.
  revert init. induction ps as [|[k' x] ps IH]; cbn; [discriminate|].
  intros init [Hnotin Hnd]%NoDup_cons Hget.
  destruct (String.eqb k k') eqn:E.
  - apply String.eqb_eq in E as <-. injection Hget as ->.
    rewrite Get_props_spread_other by assumption.
    apply Get_props_define_same.
  - by apply IH.
Qed.

(** The trace of a dispatch whose handler is one call to the client: the
    opening console line, the call, and one closing console line. *)
Lemma callTool_one_client_call
  (S D : gmap string Handler) (em : ObjectPrototypeMember -> string)
  (client : NaverSearchClient) (name : string) (args : JsVal) (h : Handler)
  (m : ClientMethod) (request : JsVal) (log : list Event) :
  toolHandlers S D !! name = Some h ->
  ToBoolean args = true ->
  (forall lg, h args lg = call_client client m request lg) ->
  exists added,
    snd (callTool S D em name args log) = log ++ added
    /\ client_calls added = [(m, request)].
Proof.
  intros Hh Ht Hcall. apply toolHandlers_get_own in Hh.
  pose proof (Hcall (log ++ [executing name args])) as Hrun.
  unfold call_client in Hrun.
  destruct (method client m request) as [result | error] eqn:Hm.
  - rewrite (callTool_resolved S D em name args (Own h) result log _ Ht Hh Hrun).
    exists [executing name args; ClientCall m request; executed name].
    split; [|reflexivity]. cbn [snd]. by rewrite <- !app_assoc.
  - rewrite (callTool_rejected S D em name args (Own h) error log _ Ht Hh Hrun).
    rewrite createErrorResponse_cases.
    destruct (errorMessage_of error) as [message | e].
    + exists [executing name args; ClientCall m request; api_error message].
      split; [|reflexivity]. cbn [snd]. by rewrite <- !app_assoc.
    + exists [executing name args; ClientCall m request].
      split; [|reflexivity]. cbn [snd]. by rewrite <- !app_assoc.
Qed.

(** C6.  The tool "news-search", called with [{query: "test"}], makes
    exactly one call to the Remote Client, [search] with the argument
    [{type: "news", query: "test"}], and the handler ends as that call
    ends. *)
Theorem C6_news_search_request
  (S D : gmap string Handler) (em : ObjectPrototypeMember -> string)
  (client : NaverSearchClient) (log : list Event) :
  toolHandlers S D !! "news-search" = Some (handleNewsSearch client) ->
  let request := JObj [("type", JStr "news"); ("query", JStr "test")] in
  (forall lg,
      handleNewsSearch client (query "test") lg
      = (search client request, lg ++ [ClientCall M_search request]))
  /\ exists added,
       snd (callTool S D em "news-search" (query "test") log) = log ++ added
       /\ client_calls added = [(M_search, request)].
Proof.
  intros Hh request. split; [reflexivity|].
  eapply callTool_one_client_call; [exact Hh | reflexivity |].
  reflexivity.
Qed.

Lemma C6_news_search_request_witness :
  exists added,
    snd (callTool (scenario_tools (Normal items_empty)) ∅ silent_engine
           "news-search" (query "test") []) = [] ++ added
    /\ client_calls added
       = [(M_search, JObj [("type", JStr "news"); ("query", JStr "test")])].
Proof.
  exact (proj2 (C6_news_search_request
                  (scenario_tools (Normal items_empty)) ∅ silent_engine
                  (stub (Normal items_empty)) [] eq_refl)).
Defined.

(** C7.  The tool "local-search", called with [{query: "cafe"}], makes one
    call to the Remote Client, [searchLocal] with those very arguments; the
    generic [search] is not called. *)
Theorem C7_local_search_request
  (S D : gmap string Handler) (em : ObjectPrototypeMember -> string)
  (client : NaverSearchClient) (log : list Event) :
  toolHandlers S D !! "local-search" = Some (handleLocalSearch client) ->
  (forall lg,
      handleLocalSearch client (query "cafe") lg
      = (searchLocal client (query "cafe"),
         lg ++ [ClientCall M_searchLocal (query "cafe")]))
  /\ exists added,
       snd (callTool S D em "local-search" (query "cafe") log) = log ++ added
       /\ client_calls added = [(M_searchLocal, query "cafe")]
       /\ forall arg, ~ In (ClientCall M_search arg) added.
Proof.
  intros Hh. split; [reflexivity|].
  destruct (callTool_one_client_call S D em client "local-search"
              (query "cafe") (handleLocalSearch client) M_searchLocal
              (query "cafe") log Hh eq_refl (fun _ => eq_refl))
    as (added & Hsnd & Hcalls).
  exists added. repeat split; [assumption | assumption |].
  intros arg Hin.
  assert (Hc : In (M_search, arg) (client_calls added)).
  { unfold client_calls. apply in_flat_map.
    exists (ClientCall M_search arg). split; [assumption | by left]. }
  rewrite Hcalls in Hc. destruct Hc as [Hc | []]. discriminate.
Qed.

Lemma C7_local_search_request_witness :
  exists added,
    snd (callTool (scenario_tools (Normal items_empty)) ∅ silent_engine
           "local-search" (query "cafe") []) = [] ++ added
    /\ client_calls added = [(M_searchLocal, query "cafe")]
    /\ forall arg, ~ In (ClientCall M_search arg) added.
Proof.
  exact (proj2 (C7_local_search_request
                  (scenario_tools (Normal items_empty)) ∅ silent_engine
                  (stub (Normal items_empty)) [] eq_refl)).
Defined.

(** C10.  Each of the nine handlers that put a type tag before the spread
    of the caller's arguments sends to [search] the caller's own ["type"]
    when the arguments have one: the injected tag is overridden.  With
    [{query: "x", type: "blog"}], "news" gives way to "blog". *)
Theorem C10_caller_type_overrides_tag
  (client : NaverSearchClient) (tag : string) (h : Handler)
  (ps : list (string * JsVal)) (t : JsVal) (log : list Event) :
  In (tag, h) (tagged_handlers client) ->
  NoDup (map fst ps) ->
  Get (JObj ps) "type" = Some t ->
  (exists request,
      h (JObj ps) log
      = (search client request, log ++ [ClientCall M_search request])
      /\ Get request "type" = Some t)
  /\ handleNewsSearch client
       (JObj [("query", JStr "x"); ("type", JStr "blog")]) log
     = (search client (JObj [("type", JStr "blog"); ("query", JStr "x")]),
        log ++ [ClientCall M_search
                  (JObj [("type", JStr "blog"); ("query", JStr "x")])]).
Proof.
  intros Hin Hnd Hget. split; [|reflexivity].
  exists (JObj (spread [("type", JStr tag)] (JObj ps))). split.
  - cbn in Hin.
    repeat (destruct Hin as [Hin | Hin];
            [injection Hin as <- <-; reflexivity |]).
    destruct Hin.
  - cbn [Get]. unfold spread. cbn [own_enumerable_props].
    by apply Get_props_spread.
Qed.

Lemma C10_caller_type_overrides_tag_witness :
  exists request,
    handleShopSearch (stub (Normal items_empty))
      (JObj [("type", JStr "blog"); ("query", JStr "x")]) []
    = (Normal items_empty, [] ++ [ClientCall M_search request])
    /\ Get request "type" = Some (JStr "blog").
Proof.
  refine (proj1 (C10_caller_type_overrides_tag
                   (stub (Normal items_empty)) "shop"
                   (handleShopSearch (stub (Normal items_empty)))
                   [("type", JStr "blog"); ("query", JStr "x")]
                   (JStr "blog") [] _ _ eq_refl)).
  - cbn. tauto.
  - exact (bool_decide_unpack (NoDup ["type"; "query"]) I).
Defined.

(** ** Start-up *)

Lemma falsy_env_get env key :
  negb (ToBoolean (env_get env key)) = absent_or_empty env key.
Proof.
  unfold env_get, absent_or_empty. destruct (env !! key) as [s|]; cbn; auto.
  apply negb_involutive.
Qed.

(** C9, as stated, fails: both credentials are present in the environment,
    the identifier as the empty string, and the process still exits with
    code 1 without initializing the client. *)
Lemma C9_startup_counterexample :
  is_Some (env_of EmptyString "secret" !! "NAVER_CLIENT_ID")
  /\ is_Some (env_of EmptyString "secret" !! "NAVER_CLIENT_SECRET")
  /\ main (env_of EmptyString "secret") (Normal tt)
     = ([credentials_required], Exited 1)
  /\ forall config,
       ~ In (ClientInitialize config)
            (fst (main (env_of EmptyString "secret") (Normal tt))).
Proof.
  split; [by eexists|]. split; [by eexists|]. split; [reflexivity|].
  intros config Hin. vm_compute in Hin. destruct Hin as [Hin | []].
  discriminate.
Qed.

(** C9, amended.  If either credential is absent from the environment or
    is the empty string, the process writes the diagnostic and exits with
    code 1 before the server is connected.  If both are present and not
    empty, validation does not exit: the client is initialized with exactly
    that pair and the script goes on to [runServer]. *)
Theorem C9_startup_credentials
  (env : gmap string string) (connect : Completion unit) :
  (absent_or_empty env "NAVER_CLIENT_ID"
   || absent_or_empty env "NAVER_CLIENT_SECRET" = true ->
   main env connect = ([credentials_required], Exited 1)
   /\ (1 <> 0)%Z
   /\ ~ In ServerConnect (fst (main env connect)))
  /\ (forall id secret,
        env !! "NAVER_CLIENT_ID" = Some id ->
        env !! "NAVER_CLIENT_SECRET" = Some secret ->
        id <> EmptyString -> secret <> EmptyString ->
        main env connect
        = runServer connect
            [ClientInitialize (JObj [("clientId", JStr id);
                                     ("clientSecret", JStr secret)]);
             SetRequestHandler "ListToolsRequestSchema";
             SetRequestHandler "CallToolRequestSchema"]
        /\ (connect = Normal tt -> snd (main env connect) = Running)).
Proof.
  split.
  - intros Hmissing.
    assert (Hmain : main env connect = ([credentials_required], Exited 1)).
    { unfold main. rewrite !falsy_env_get, Hmissing. reflexivity. }
    rewrite Hmain. repeat split; [lia|].
    intros [Hin | []]. discriminate.
  - intros id secret Hid Hsecret Hne1 Hne2.
    assert (Hmain : main env connect
                    = runServer connect
                        [ClientInitialize
                           (JObj [("clientId", JStr id);
                                  ("clientSecret", JStr secret)]);
                         SetRequestHandler "ListToolsRequestSchema";
                         SetRequestHandler "CallToolRequestSchema"]).
    { unfold main. rewrite !falsy_env_get. unfold absent_or_empty, env_get.
      rewrite Hid, Hsecret.
      apply String.eqb_neq in Hne1, Hne2. by rewrite Hne1, Hne2. }
    split; [exact Hmain|]. intros ->. by rewrite Hmain.
Qed.

Lemma C9_startup_credentials_witness :
  main (env_of "id" "secret") (Normal tt)
  = ([ClientInitialize (JObj [("clientId", JStr "id");
                              ("clientSecret", JStr "secret")]);
      SetRequestHandler "ListToolsRequestSchema";
      SetRequestHandler "CallToolRequestSchema";
      ProcessOn "uncaughtException"; ProcessOn "unhandledRejection";
      ServerConnect;
      ConsoleError [Val (JStr "Naver Search MCP Server running on stdio")]],
     Running)
  /\ main (env_of "id" EmptyString) (Normal tt)
     = ([credentials_required], Exited 1).
Proof.
  split.
  - refine (proj1 (proj2 (C9_startup_credentials
                            (env_of "id" "secret") (Normal tt))
                     "id" "secret" eq_refl eq_refl _ _)); discriminate.
  - exact (proj1 (proj1 (C9_startup_credentials
                           (env_of "id" EmptyString) (Normal tt)) eq_refl)).
Defined.

(** ** Further properties of the dispatcher *)

(** The dispatcher reads the tables only through [toolHandlers[name]]. *)
Lemma callTool_same_property
  (S D S' D' : gmap string Handler) (em : ObjectPrototypeMember -> string)
  (name : string) (args : JsVal) (log : list Event) :
  toolHandlers_get S D name = toolHandlers_get S' D' name ->
  callTool S D em name args log = callTool S' D' em name args log.
Proof. intros H. unfold callTool. by rewrite H. Qed.

Lemma falsy_values_falsy (v : JsVal) :
  In v falsy_values -> ToBoolean v = false.
Proof.
  unfold falsy_values. cbn. intros [<-|[<-|[<-|[<-|[<-|[]]]]]]; reflexivity.
Qed.

(** Each search handler is one call to the client. *)
Lemma search_handler_calls
  (client : NaverSearchClient) (h : Handler) (m : ClientMethod)
  (request : JsVal -> JsVal) (params : JsVal) (log : list Event) :
  In (h, (m, request)) (search_handlers client) ->
  h params log = call_client client m (request params) log.
Proof.
  intros Hin. cbn in Hin.
  repeat (destruct Hin as [Hin | Hin];
          [injection Hin as <- <- <-; reflexivity |]).
  destruct Hin.
Qed.

(** X1.  A falsy arguments value that is not null or absent ([false], 0 or
    the empty string) is rejected like them, and the check comes first for
    every tool name, be it registered, inherited or unknown: the answer is
    the missing-arguments envelope and the trace gains the two console
    lines only. *)
Theorem X1_falsy_arguments_rejected
  (S D : gmap string Handler) (em : ObjectPrototypeMember -> string)
  (name : string) (args : JsVal) (log : list Event) :
  In args falsy_values ->
  ToBoolean args = false
  /\ callTool S D em name args log
     = (Normal (error_response "Arguments are required"),
        log ++ [executing name args; api_error "Arguments are required"])
  /\ client_calls [executing name args; api_error "Arguments are required"]
     = [].
Proof.
  intros Hin. apply falsy_values_falsy in Hin.
  split; [assumption|]. split; [|reflexivity].
  by apply callTool_falsy.
Qed.

Lemma X1_falsy_arguments_rejected_witness :
  callTool (scenario_tools (Normal items_empty)) ∅ silent_engine
    "local-search" (JNum 0) []
  = (Normal (error_response "Arguments are required"),
     [executing "local-search" (JNum 0);
      api_error "Arguments are required"]).
Proof.
  refine (proj1 (proj2 (X1_falsy_arguments_rejected
                          (scenario_tools (Normal items_empty)) ∅
                          silent_engine "local-search" (JNum 0) [] _))).
  cbn. tauto.
Defined.

(** X2.  Dispatcher, handler and client composed: for a search handler
    registered under any name and any argument object, the dispatcher
    makes exactly one client call, with the request that the handler
    builds, and what it does next is decided by how that call ends.  On a
    return it answers the serialized result.  On a throw it answers the
    error envelope with the message of the thrown value, unless that value
    has no string conversion: then the conversion's own error escapes the
    dispatcher, and nothing is written after the call. *)
Theorem X2_search_dispatch
  (S D : gmap string Handler) (em : ObjectPrototypeMember -> string)
  (client : NaverSearchClient) (name : string) (h : Handler)
  (m : ClientMethod) (request : JsVal -> JsVal)
  (ps : list (string * JsVal)) (log : list Event) :
  toolHandlers S D !! name = Some h ->
  In (h, (m, request)) (search_handlers client) ->
  let args := JObj ps in
  callTool S D em name args log
  = match method client m (request args) with
    | Normal result =>
        (Normal (text_response (of_option (JSON_stringify result 2))),
         log ++ [executing name args; ClientCall m (request args);
                 executed name])
    | Throw error =>
        match errorMessage_of error with
        | Normal message =>
            (Normal (error_response message),
             log ++ [executing name args; ClientCall m (request args);
                     api_error message])
        | Throw e =>
            (Throw e,
             log ++ [executing name args; ClientCall m (request args)])
        end
    end.
Proof.
  intros Hh Hin args. apply toolHandlers_get_own in Hh.
  assert (Ht : ToBoolean args = true) by reflexivity.
  pose proof (search_handler_calls client h m request args
                (log ++ [executing name args]) Hin) as Hrun.
  unfold call_client in Hrun.
  destruct (method client m (request args)) as [result | error].
  - rewrite (callTool_resolved S D em name args (Own h) result log _
               Ht Hh Hrun).
    by rewrite <- !app_assoc.
  - rewrite (callTool_rejected S D em name args (Own h) error log _
               Ht Hh Hrun).
    rewrite createErrorResponse_cases.
    destruct (errorMessage_of error); by rewrite <- !app_assoc.
Qed.

Lemma X2_search_dispatch_witness :
  callTool (scenario_tools (Throw (NonError (JStr "quota")))) ∅
    silent_engine "local-search" (query "cafe") []
  = (Normal (error_response "quota"),
     [executing "local-search" (query "cafe");
      ClientCall M_searchLocal (query "cafe"); api_error "quota"]).
Proof.
  refine (X2_search_dispatch
            (scenario_tools (Throw (NonError (JStr "quota")))) ∅
            silent_engine (stub (Throw (NonError (JStr "quota"))))
            "local-search"
            (handleLocalSearch (stub (Throw (NonError (JStr "quota")))))
            M_searchLocal (fun p => p) [("query", JStr "cafe")] []
            eq_refl _).
  cbn. tauto.
Defined.

(** ** Further properties of the requests *)

Lemma Get_props_None_iff k (ps : list (string * JsVal)) :
  Get_props ps k = None <-> k ∉ map fst ps.
Proof.
  induction ps as [|[k' x] ps IH]; cbn.
  - split; [intros _; apply not_elem_of_nil | reflexivity].
  - rewrite not_elem_of_cons. destruct (String.eqb k k') eqn:E.
    + apply String.eqb_eq in E. split; [discriminate | tauto].
    + apply String.eqb_neq in E. tauto.
Qed.

(** Reading a spread of an object with distinct keys: the object's own
    value where it has one, else what was defined before. *)
Lemma Get_props_spread_object k (ps init : list (string * JsVal)) :
  NoDup (map fst ps) ->
  Get_props (spread init (JObj ps)) k
  = match Get_props ps k with
    | Some v => Some v
    | None => Get_props init k
    end.
Proof.
  intros Hnd. unfold spread. cbn [own_enumerable_props].
  destruct (Get_props ps k) as [v|] eqn:E.
  - by apply Get_props_spread.
  - apply Get_props_spread_other. by apply Get_props_None_iff.
Qed.

(** Keys that are not array indices, are distinct and are not yet defined
    are appended in their order. *)
Lemma spread_appends (ps init : list (string * JsVal)) :
  NoDup (map fst ps) ->
  Forall (fun p => array_index (fst p) = None) ps ->
  Forall (fun p => Get_props init (fst p) = None) ps ->
  fold_left (fun acc p => CreateDataProperty (fst p) (snd p) acc) ps init
  = init ++ ps.
Proof.
  revert init. induction ps as [|[k x] ps IH]; intros init Hnd Hidx Hnew.
  - cbn. by rewrite app_nil_r.
  - cbn in Hnd. apply NoDup_cons in Hnd as [Hnotin Hnd].
    apply Forall_cons in Hidx as [Hk Hidx].
    apply Forall_cons in Hnew as [Hinit Hnew].
    cbn [fst snd] in *. cbn [fold_left fst snd].
    unfold CreateDataProperty at 2. rewrite Hinit, Hk.
    rewrite (IH (init ++ [(k, x)])); [by rewrite <- app_assoc | done | done |].
    apply Forall_forall. intros [k' x'] Hin. cbn [fst].
    rewrite Get_props_app.
    rewrite Forall_forall in Hnew. pose proof (Hnew (k', x') Hin) as Hi.
    cbn [fst] in Hi. rewrite Hi. cbn.
    destruct (String.eqb k' k) eqn:E; [|reflexivity].
    apply String.eqb_eq in E as ->. exfalso. apply Hnotin.
    apply list_elem_of_fmap. by exists (k, x').
Qed.

(** X3.  What a tagged handler sends: every field of the caller's
    arguments with the caller's value, the handler's type tag only when the
    caller gives no ["type"], and nothing else. *)
Theorem X3_tagged_request_fields
  (client : NaverSearchClient) (tag : string) (h : Handler)
  (ps : list (string * JsVal)) (log : list Event) :
  In (tag, h) (tagged_handlers client) ->
  NoDup (map fst ps) ->
  exists request,
    h (JObj ps) log
    = (search client (JObj request),
       log ++ [ClientCall M_search (JObj request)])
    /\ forall k,
         Get_props request k
         = match Get_props ps k with
           | Some v => Some v
           | None => if String.eqb k "type" then Some (JStr tag) else None
           end.
Proof.
  intros Hin Hnd. exists (spread [("type", JStr tag)] (JObj ps)). split.
  - cbn in Hin.
    repeat (destruct Hin as [Hin | Hin];
            [injection Hin as <- <-; reflexivity |]).
    destruct Hin.
  - intros k. by rewrite Get_props_spread_object.
Qed.

Lemma X3_tagged_request_fields_witness :
  exists request,
    handleKinSearch (stub (Normal items_empty))
      (JObj [("query", JStr "x"); ("display", JNum 5)]) []
    = (Normal items_empty, [] ++ [ClientCall M_search (JObj request)])
    /\ forall k,
         Get_props request k
         = match Get_props [("query", JStr "x"); ("display", JNum 5)] k with
           | Some v => Some v
           | None => if String.eqb k "type" then Some (JStr "kin") else None
           end.
Proof.
  refine (X3_tagged_request_fields
            (stub (Normal items_empty)) "kin"
            (handleKinSearch (stub (Normal items_empty)))
            [("query", JStr "x"); ("display", JNum 5)] [] _ _).
  - cbn. tauto.
  - exact (bool_decide_unpack (NoDup ["query"; "display"]) I).
Defined.

(** X4.  When the caller's arguments have no ["type"] and no array-index
    key, the request of a tagged handler is the tag followed by the
    caller's fields in the caller's order. *)
Theorem X4_tagged_request_order
  (client : NaverSearchClient) (tag : string) (h : Handler)
  (ps : list (string * JsVal)) (log : list Event) :
  In (tag, h) (tagged_handlers client) ->
  NoDup (map fst ps) ->
  Forall (fun p => array_index (fst p) = None) ps ->
  Get_props ps "type" = None ->
  h (JObj ps) log
  = (search client (JObj (("type", JStr tag) :: ps)),
     log ++ [ClientCall M_search (JObj (("type", JStr tag) :: ps))]).
Proof.
  intros Hin Hnd Hidx Hnotype.
  assert (Hs : spread [("type", JStr tag)] (JObj ps)
               = ("type", JStr tag) :: ps).
  { unfold spread. cbn [own_enumerable_props].
    rewrite spread_appends; [reflexivity | assumption | assumption |].
    apply Forall_forall. intros [k x] Hk. cbn.
    destruct (String.eqb k "type") eqn:E; [|reflexivity].
    apply String.eqb_eq in E as ->. exfalso.
    apply Get_props_None_iff in Hnotype. apply Hnotype.
    apply list_elem_of_fmap. by exists ("type", x). }
  cbn in Hin.
  repeat (destruct Hin as [Hin | Hin];
          [injection Hin as <- <-;
           unfold handleBookSearch, handleEncycSearch, handleImageSearch,
             handleKinSearch, handleNewsSearch, handleBlogSearch,
             handleShopSearch, handleCafeArticleSearch, handleWebKrSearch;
           rewrite Hs; reflexivity |]).
  destruct Hin.
Qed.

Lemma X4_tagged_request_order_witness :
  handleImageSearch (stub (Normal items_empty))
    (JObj [("query", JStr "x"); ("display", JNum 5)]) []
  = (Normal items_empty,
     [] ++ [ClientCall M_search
              (JObj [("type", JStr "image"); ("query", JStr "x");
                     ("display", JNum 5)])]).
Proof.
  refine (X4_tagged_request_order
            (stub (Normal items_empty)) "image"
            (handleImageSearch (stub (Normal items_empty)))
            [("query", JStr "x"); ("display", JNum 5)] [] _ _ _ eq_refl).
  - cbn. tauto.
  - exact (bool_decide_unpack (NoDup ["query"; "display"]) I).
  - repeat constructor.
Defined.

(** ** Further properties of the envelopes *)

Lemma JSON_stringify_None_iff (v : JsVal) (space : nat) :
  JSON_stringify v space = None <-> v = JUndefined.
Proof.
  unfold JSON_stringify.
  destruct v as [| |[]| | | |]; cbn; split; congruence.
Qed.

(** X5.  The text of a success envelope is a string, except when the
    handler resolves with [undefined]: then the envelope carries
    [text: undefined]. *)
Theorem X5_success_text_is_string
  (S D : gmap string Handler) (em : ObjectPrototypeMember -> string)
  (name : string) (h : Handler) (args result : JsVal)
  (log log' : list Event) :
  toolHandlers S D !! name = Some h ->
  ToBoolean args = true ->
  h args (log ++ [executing name args]) = (Normal result, log') ->
  exists response,
    callTool S D em name args log = (Normal response, log' ++ [executed name])
    /\ Get response "isError" = None
    /\ (result <> JUndefined ->
        exists text, JSON_stringify result 2 = Some text
                     /\ response_text response = Some (JStr text))
    /\ (result = JUndefined -> response_text response = Some JUndefined).
Proof.
  intros Hh Ht Hr. apply toolHandlers_get_own in Hh.
  eexists. split.
  - apply (callTool_resolved S D em name args (Own h) result log log');
      assumption.
  - split; [reflexivity|]. split.
    + intros Hne. destruct (JSON_stringify result 2) as [text|] eqn:E.
      * exists text. split; reflexivity.
      * by apply JSON_stringify_None_iff in E.
    + intros ->. reflexivity.
Qed.

Lemma X5_success_text_is_string_witness :
  exists response,
    callTool (scenario_tools (Normal JUndefined)) ∅ silent_engine
      "news-search" (query "test") []
    = (Normal response,
       [executing "news-search" (query "test");
        ClientCall M_search
          (JObj [("type", JStr "news"); ("query", JStr "test")])]
       ++ [executed "news-search"])
    /\ Get response "isError" = None
    /\ (JUndefined <> JUndefined ->
        exists text, JSON_stringify JUndefined 2 = Some text
                     /\ response_text response = Some (JStr text))
    /\ (JUndefined = JUndefined -> response_text response = Some JUndefined).
Proof.
  apply (X5_success_text_is_string
           (scenario_tools (Normal JUndefined)) ∅ silent_engine
           "news-search" (handleNewsSearch (stub (Normal JUndefined)))
           (query "test") JUndefined []
           [executing "news-search" (query "test");
            ClientCall M_search
              (JObj [("type", JStr "news"); ("query", JStr "test")])]);
    reflexivity.
Defined.



(** ** Further properties of the handler map *)

Lemma toolHandlers_lookup (S D : gmap string Handler) (name : string) :
  toolHandlers S D !! name
  = match D !! name with
    | Some h => Some h
    | None => S !! name
    end.
Proof.
  unfold toolHandlers. rewrite lookup_union.
  by destruct (D !! name), (S !! name).
Qed.

(** X7.  The handler map is the search table overlaid with the datalab
    table: a name that the datalab table defines is dispatched as if the
    search table were empty, and any other name as if the datalab table
    were. *)
Theorem X7_datalab_overlays_search
  (S D : gmap string Handler) (em : ObjectPrototypeMember -> string)
  (name : string) (args : JsVal) (log : list Event) :
  callTool S D em name args log
  = match D !! name with
    | Some _ => callTool ∅ D em name args log
    | None => callTool S ∅ em name args log
    end.
Proof.
  destruct (D !! name) as [h|] eqn:E; apply callTool_same_property;
    unfold toolHandlers_get; rewrite !toolHandlers_lookup, ?E;
    by rewrite ?lookup_empty.
Qed.

(** X8.  The name "constructor" is not a tool, but the lookup finds
    [Object] on the prototype chain: unless a table defines that name, the
    dispatcher answers a success envelope that echoes the argument object,
    without any client call. *)
Theorem X8_constructor_echoes_arguments
  (S D : gmap string Handler) (em : ObjectPrototypeMember -> string)
  (ps : list (string * JsVal)) (log : list Event) :
  toolHandlers S D !! "constructor" = None ->
  callTool S D em "constructor" (JObj ps) log
  = (Normal (text_response (of_option (JSON_stringify (JObj ps) 2))),
     log ++ [executing "constructor" (JObj ps); executed "constructor"])
  /\ exists text, JSON_stringify (JObj ps) 2 = Some text.
Proof.
  intros Hown. split; [|by eexists].
  rewrite (callTool_resolved S D em "constructor" (JObj ps)
             (Inherited OP_constructor) (JObj ps) log
             (log ++ [executing "constructor" (JObj ps)])); try reflexivity.
  - by rewrite <- app_assoc.
  - unfold toolHandlers_get. by rewrite Hown.
Qed.

Lemma X8_constructor_echoes_arguments_witness :
  callTool (scenario_tools (Normal items_empty)) ∅ silent_engine
    "constructor" items_empty []
  = (Normal (text_response (JStr items_empty_text)),
     [executing "constructor" items_empty; executed "constructor"]).
Proof.
  exact (proj1 (X8_constructor_echoes_arguments
                  (scenario_tools (Normal items_empty)) ∅ silent_engine
                  [("items", JArr [])] [] eq_refl)).
Defined.

(** X9.  Likewise "toString": unless a table defines that name, every
    truthy arguments value gets the success envelope whose text is the
    JSON string "[object Undefined]", and the client is not called. *)
Theorem X9_toString_answers
  (S D : gmap string Handler) (em : ObjectPrototypeMember -> string)
  (args : JsVal) (log : list Event) :
  toolHandlers S D !! "toString" = None ->
  ToBoolean args = true ->
  callTool S D em "toString" args log
  = (Normal (text_response
               (JStr (DQUOTE +:+ "[object Undefined]" +:+ DQUOTE))),
     log ++ [executing "toString" args; executed "toString"]).
Proof.
  intros Hown Ht.
  rewrite (callTool_resolved S D em "toString" args
             (Inherited OP_toString) (JStr "[object Undefined]") log
             (log ++ [executing "toString" args])); try reflexivity.
  - by rewrite <- app_assoc.
  - assumption.
  - unfold toolHandlers_get. by rewrite Hown.
Qed.

Lemma X9_toString_answers_witness :
  callTool (scenario_tools (Normal items_empty)) ∅ silent_engine
    "toString" (query "test") []
  = (Normal (text_response
               (JStr (DQUOTE +:+ "[object Undefined]" +:+ DQUOTE))),
     [] ++ [executing "toString" (query "test"); executed "toString"]).
Proof.
  exact (X9_toString_answers
           (scenario_tools (Normal items_empty)) ∅ silent_engine
           (query "test") [] eq_refl eq_refl).
Defined.

(** ** Further properties of the start-up *)

Lemma main_invalid env connect :
  absent_or_empty env "NAVER_CLIENT_ID"
  || absent_or_empty env "NAVER_CLIENT_SECRET" = true ->
  main env connect = ([credentials_required], Exited 1).
Proof.
  intros H. unfold main. by rewrite !falsy_env_get, H.
Qed.

Lemma main_valid env connect :
  absent_or_empty env "NAVER_CLIENT_ID"
  || absent_or_empty env "NAVER_CLIENT_SECRET" = false ->
  main env connect
  = runServer connect
      [ClientInitialize
         (JObj [("clientId", env_get env "NAVER_CLIENT_ID");
                ("clientSecret", env_get env "NAVER_CLIENT_SECRET")]);
       SetRequestHandler "ListToolsRequestSchema";
       SetRequestHandler "CallToolRequestSchema"].
Proof.
  intros H. unfold main. by rewrite !falsy_env_get, H.
Qed.

(** X10.  The process never exits with code 0: it keeps running or exits
    with code 1.  It keeps running exactly when both credentials are set
    and not empty and [server.connect] succeeds. *)
Theorem X10_start_up_outcome
  (env : gmap string string) (connect : Completion unit) :
  (snd (main env connect) = Running \/ snd (main env connect) = Exited 1)
  /\ (snd (main env connect) = Running
      <-> absent_or_empty env "NAVER_CLIENT_ID" = false
          /\ absent_or_empty env "NAVER_CLIENT_SECRET" = false
          /\ exists u, connect = Normal u).
Proof.
  destruct (absent_or_empty env "NAVER_CLIENT_ID"
            || absent_or_empty env "NAVER_CLIENT_SECRET") eqn:E.
  - rewrite (main_invalid env connect E). cbn. split; [by right|].
    split; [discriminate|]. intros (H1 & H2 & _).
    rewrite H1, H2 in E. discriminate.
  - rewrite (main_valid env connect E).
    apply orb_false_iff in E as [E1 E2].
    destruct connect as [u | e]; cbn.
    + split; [by left|]. split; [|reflexivity]. eauto.
    + split; [by right|]. split; [discriminate|].
      intros (_ & _ & u & Hu). discriminate.
Qed.

(** X11.  A failure of [server.connect] is fatal too: with valid
    credentials and a connect that throws, the client has been
    initialized, the error is written after "Fatal error running server:"
    and the process exits with code 1. *)
Theorem X11_connect_failure_is_fatal
  (env : gmap string string) (error : Thrown) :
  absent_or_empty env "NAVER_CLIENT_ID" = false ->
  absent_or_empty env "NAVER_CLIENT_SECRET" = false ->
  main env (Throw error)
  = (before_connect
       (JObj [("clientId", env_get env "NAVER_CLIENT_ID");
              ("clientSecret", env_get env "NAVER_CLIENT_SECRET")])
     ++ [ServerConnect;
         ConsoleError [Val (JStr "Fatal error running server:"); Err error]],
     Exited 1).
Proof.
  intros E1 E2. rewrite main_valid; [reflexivity|]. by rewrite E1, E2.
Qed.

Lemma X11_connect_failure_is_fatal_witness :
  main (env_of "id" "secret") (Throw (ErrorInstance "EPIPE"))
  = (before_connect (JObj [("clientId", JStr "id");
                           ("clientSecret", JStr "secret")])
     ++ [ServerConnect;
         ConsoleError [Val (JStr "Fatal error running server:");
                       Err (ErrorInstance "EPIPE")]],
     Exited 1).
Proof.
  exact (X11_connect_failure_is_fatal
           (env_of "id" "secret") (ErrorInstance "EPIPE") eq_refl eq_refl).
Defined.

(** X12.  Order of the start-up: wherever the trace has the connection of
    the server, what comes before it is the initialization of the client
    with the credentials of the environment, the registration of the two
    request handlers and of the two process listeners, in this order; and
    exactly one console line follows. *)
Theorem X12_connect_comes_last
  (env : gmap string string) (connect : Completion unit)
  (pre post : list Event) :
  fst (main env connect) = pre ++ ServerConnect :: post ->
  pre = before_connect
          (JObj [("clientId", env_get env "NAVER_CLIENT_ID");
                 ("clientSecret", env_get env "NAVER_CLIENT_SECRET")])
  /\ ToBoolean (env_get env "NAVER_CLIENT_ID") = true
  /\ ToBoolean (env_get env "NAVER_CLIENT_SECRET") = true
  /\ exists line, post = [ConsoleError line].
Proof.
  destruct (absent_or_empty env "NAVER_CLIENT_ID"
            || absent_or_empty env "NAVER_CLIENT_SECRET") eqn:E.
  - rewrite (main_invalid env connect E). cbn. intros H.
    destruct pre as [|? [|? ?]]; discriminate.
  - rewrite (main_valid env connect E).
    apply orb_false_iff in E as [E1 E2].
    rewrite <- falsy_env_get in E1, E2.
    apply negb_false_iff in E1, E2.
    intros H. split; [|split; [assumption|split; [assumption|]]].
    + destruct connect; cbn in H;
        repeat (destruct pre as [|? pre]; cbn in H;
                [try discriminate | injection H as <- H]);
        try discriminate; try reflexivity;
        destruct pre; discriminate.
    + destruct connect; cbn in H;
        repeat (destruct pre as [|? pre]; cbn in H;
                [try discriminate | injection H as <- H]);
        try discriminate;
        try (injection H as <-; eauto);
        destruct pre; discriminate.
Qed.

Lemma X12_connect_comes_last_witness :
  [ClientInitialize (JObj [("clientId", JStr "id");
                           ("clientSecret", JStr "secret")]);
   SetRequestHandler "ListToolsRequestSchema";
   SetRequestHandler "CallToolRequestSchema";
   ProcessOn "uncaughtException"; ProcessOn "unhandledRejection"]
  = before_connect (JObj [("clientId", JStr "id");
                          ("clientSecret", JStr "secret")])
  /\ ToBoolean (JStr "id") = true
  /\ ToBoolean (JStr "secret") = true
  /\ exists line,
       [ConsoleError [Val (JStr "Naver Search MCP Server running on stdio")]]
       = [ConsoleError line].
Proof.
  exact (X12_connect_comes_last
           (env_of "id" "secret") (Normal tt)
           [ClientInitialize (JObj [("clientId", JStr "id");
                                    ("clientSecret", JStr "secret")]);
            SetRequestHandler "ListToolsRequestSchema";
            SetRequestHandler "CallToolRequestSchema";
            ProcessOn "uncaughtException"; ProcessOn "unhandledRejection"]
           [ConsoleError
              [Val (JStr "Naver Search MCP Server running on stdio")]]
           eq_refl).
Defined.

Lemma X10_start_up_outcome_witness :
  snd (main (env_of "id" "secret") (Normal tt)) = Running.
Proof.
  refine (proj2 (proj2 (X10_start_up_outcome
                          (env_of "id" "secret") (Normal tt))) _).
  repeat split. by exists tt.
Defined.

(** ** The console and the envelope agree *)

(** X13.  What the dispatcher writes last to the console tells how it
    answered: an error envelope always comes with the line "API Error:"
    carrying the very message of the envelope, and a success envelope with
    the line of the successful execution.  The one case in which it answers
    with no envelope is a thrown value that is not an [Error] and has no
    string conversion: the error of the conversion escapes and no line is
    written for it. *)
Theorem X13_console_matches_envelope
  (S D : gmap string Handler) (em : ObjectPrototypeMember -> string)
  (name : string) (args : JsVal) (log : list Event) :
  (exists response log',
      callTool S D em name args log = (Normal response, log')
      /\ ((exists message before,
              response = error_response message
              /\ log' = before ++ [api_error message])
          \/ (exists text before,
                response = text_response text
                /\ log' = before ++ [executed name])))
  \/ (exists p v e log1,
        ToBoolean args = true
        /\ toolHandlers_get S D name = Some p
        /\ apply_property em p args (log ++ [executing name args])
           = (Throw (NonError v), log1)
        /\ ToString v = Throw e
        /\ callTool S D em name args log = (Throw e, log1)).
Proof.
  destruct (ToBoolean args) eqn:Ht.
  - destruct (toolHandlers_get S D name) as [p|] eqn:Hp.
    + destruct (apply_property em p args (log ++ [executing name args]))
        as [[result|error] log1] eqn:Hr.
      * left. eexists _, _. split.
        -- eapply callTool_resolved; eassumption.
        -- right. eauto.
      * pose proof (callTool_rejected S D em name args p error log log1
                      Ht Hp Hr) as Hc.
        rewrite createErrorResponse_cases in Hc.
        destruct error as [message | v]; cbn in Hc.
        -- left. eexists _, _. split; [exact Hc|]. left. eauto.
        -- destruct (ToString v) as [message | e] eqn:Hv.
           ++ left. eexists _, _. split; [exact Hc|]. left. eauto.
           ++ right. exists p, v, e, log1. auto.
    + left. eexists _, _. split.
      * apply callTool_undefined_handler; assumption.
      * left. exists ("Unknown tool: " +:+ name), (log ++ [executing name args]).
        split; [reflexivity|]. by rewrite <- app_assoc.
  - left. eexists _, _. split.
    + apply callTool_falsy; assumption.
    + left. exists "Arguments are required", (log ++ [executing name args]).
      split; [reflexivity|]. by rewrite <- app_assoc.
Qed.
